(** * django-cache-machine: the fragment-cache extension and the
      invalidation engine it drives

    [caching/ext.py] is embedded function by function.  It calls into
    [caching.base] ([make_key], [add_to_flush_list], [cached]), whose
    source is not part of the tree under verification; those
    operations, and the entity / count bindings exercised by
    [tests/test_cache.py], are modelled from the specification and
    marked as such. *)

From Stdlib Require Import Ascii.
From stdpp Require Import gmap strings list fin_maps pretty.

(** ** Python values and the cache backend *)

(** An ORM entity as the caching layer sees it: a type name and a
    primary key. *)
Record entity := Entity { type_name : string; identity : Z }.

Global Instance entity_eq_dec : EqDecision entity.
Proof. solve_decision. Defined.

(** Whether a value handed back by the cache-aside executor was freshly
    produced or read from the backend. *)
Inductive provenance := computed | from_cache.

(** The values that travel through the cache: rendered fragments,
    counts, flush lists (Python sets of cache keys) and query result
    sets (rows: the entity and its rendered field data). *)
Inductive value :=
  | VStr (s : string)
  | VInt (z : Z)
  | VSet (ks : gset string)
  | VRows (rs : list (entity * string)).

(** One backend slot: the stored value and the timeout it was stored
    with ([None]: the backend default). *)
Record entry := Entry { ent_value : value; ent_timeout : option Z }.

(** What a mock of the collaborators would record, in call order. *)
Inductive event :=
  | EHasattr (attr : string)
  | EGetattr (attr : string)
  | ECallMethod (meth : string)
  | ECaller
  | EAddToFlushList (flush_keys : list string) (new_key : string)
  | ECached (key : string) (timeout : option Z)
  | ECacheGet (key : string)
  | ECacheSet (key : string) (v : value) (timeout : option Z)
  | ECacheDelete (key : string).

Record world := World {
  store : gmap string entry;
  trace : list event
}.

(** ** Exceptions and the state-and-error monad *)

Inductive exn :=
  | AttributeError (attr : string)
  | RenderError (msg : string).

Inductive result (A : Type) :=
  | Ok (a : A)
  | Raise (e : exn).
Arguments Ok {A} a.
Arguments Raise {A} e.

Definition M (A : Type) : Type := world → result A * world.

Global Instance M_ret : MRet M := λ A a w, (Ok a, w).

Global Instance M_bind : MBind M := λ A B f m w,
  match m w with
  | (Ok a, w') => f a w'
  | (Raise e, w') => (Raise e, w')
  end.

Definition raise {A} (e : exn) : M A := λ w, (Raise e, w).

Definition gets {A} (f : world → A) : M A := λ w, (Ok (f w), w).

Definition modify (f : world → world) : M unit := λ w, (Ok tt, f w).

Definition log (e : event) : M unit :=
  modify (λ w, World (store w) (trace w ++ [e])).

(** The backend contract: [get], [set], [delete]. *)
Definition cache_get (k : string) : M (option value) :=
  _ ← log (ECacheGet k);
  gets (λ w, ent_value <$> store w !! k).

Definition cache_set (k : string) (v : value) (timeout : option Z) : M unit :=
  _ ← log (ECacheSet k v timeout);
  modify (λ w, World (<[k := Entry v timeout]> (store w)) (trace w)).

Definition cache_delete (k : string) : M unit :=
  _ ← log (ECacheDelete k);
  modify (λ w, World (delete k (store w)) (trace w)).

(** Sequencing a command over a list, as a Python [for] loop. *)
Fixpoint for_each {A} (f : A → M unit) (l : list A) : M unit :=
  match l with
  | [] => mret tt
  | x :: l' => _ ← f x; for_each f l'
  end.

(** ** Dependency objects handed to the cache tag *)

(** A duck-typed Python object: each field is [Some v] when the object
    has the attribute (for the two methods: calling it returns [v]). *)
Record pyobj := PyObj {
  query_key : option string;
  cache_key : option string;
  flush_key : option string
}.

Definition hasattr_query_key (obj : pyobj) : M bool :=
  _ ← log (EHasattr "query_key");
  mret (bool_decide (is_Some (query_key obj))).

Definition call_query_key (obj : pyobj) : M string :=
  _ ← log (ECallMethod "query_key");
  match query_key obj with
  | Some k => mret k
  | None => raise (AttributeError "query_key")
  end.

Definition get_cache_key (obj : pyobj) : M string :=
  _ ← log (EGetattr "cache_key");
  match cache_key obj with
  | Some k => mret k
  | None => raise (AttributeError "cache_key")
  end.

Definition call_flush_key (obj : pyobj) : M string :=
  _ ← log (ECallMethod "flush_key");
  match flush_key obj with
  | Some k => mret k
  | None => raise (AttributeError "flush_key")
  end.

(** Invoking the producer (the body of the block, a query, a count). *)
Definition call (producer : M value) : M value :=
  _ ← log ECaller; producer.

(** Python's [str()] of an optional string and of an integer, as [%s]
    formats them. *)
Definition str_opt (s : option string) : string :=
  match s with
  | Some s => s
  | None => "None"
  end.

Definition str_int (n : Z) : string := pretty n.

(** [a or b] on optional strings: the empty string and [None] are
    falsy. *)
Definition py_or (a b : option string) : option string :=
  match a with
  | Some "" | None => b
  | Some _ => a
  end.

Record Settings := {
  TEMPLATE_DEBUG : bool;
  CACHE_COUNT_TIMEOUT : option Z
}.

Section caching.

Set Default Proof Using "Type".

(** [caching.base.make_key]: the backend key of a cache key.  Its body
    is not in the tree; every result below holds for any such
    function. *)
Variable make_key : string → string.

(** [django.conf.settings]. *)
Variable settings : Settings.

(** ** caching.base, modelled from the specification *)

(** Modelled from the spec: [caching.base.cached] is missing from the
    tree; the key under which it stores is the one [ext.py] documents
    ("Matches the key made in cached()"). *)
Definition cached_key (key : string) : string := make_key ("f:" +:+ key).

(** Modelled from the spec: reading a flush list, "default empty"
    (absent, or not a flush list). *)
Definition as_flush_list (v : option value) : gset string :=
  match v with
  | Some (VSet ks) => ks
  | _ => ∅
  end.

Definition read_flush_list (fk : string) : M (gset string) :=
  v ← cache_get fk;
  mret (as_flush_list v).

(** Modelled from the spec: [caching.base.add_to_flush_list], the
    flush-list manager's dependency registration: "for each entity key,
    read its FlushList (default empty), add dependent_cache_key, write
    back". *)
Definition add_to_flush_list (flush_keys : list string) (new_key : string)
    : M unit :=
  _ ← log (EAddToFlushList flush_keys new_key);
  for_each (λ fk,
    ks ← read_flush_list fk;
    cache_set fk (VSet ({[new_key]} ∪ ks)) None) flush_keys.

(** Modelled from the spec: [caching.base.cached], the cache-aside
    executor: debug mode calls the producer and skips storage; otherwise
    [get], and on a miss produce, [set] and return. *)
Definition cached (producer : M value) (key : string) (timeout : option Z)
    : M (value * provenance) :=
  _ ← log (ECached key timeout);
  if TEMPLATE_DEBUG settings then
    v ← call producer; mret (v, computed)
  else
    hit ← cache_get (cached_key key);
    match hit with
    | Some v => mret (v, from_cache)
    | None =>
        v ← call producer;
        _ ← cache_set (cached_key key) v timeout;
        mret (v, computed)
    end.

(** ** caching/ext.py: FragmentCacheExtension *)

(** The extension instance; [name] is the attribute [preprocess]
    sets. *)
Record FragmentCacheExtension := { name : option string }.

(** [preprocess(self, source, name, filename=None)]: remembers
    [filename or name], returns the source unchanged. *)
Definition preprocess (self : FragmentCacheExtension) (source : string)
    (name filename : option string) : FragmentCacheExtension * string :=
  ({| name := py_or filename name |}, source).

(** What [parse] reads off the token stream: the line of the [cache]
    token, the dependency expression, the optional timeout after a
    comma, and the body up to [endcache]. *)
Record cache_tag := CacheTag {
  tag_lineno : Z;
  tag_obj : pyobj;
  tag_timeout : option Z;
  tag_body : M value
}.

(** The [CallBlock] node [parse] returns: the three arguments of
    [_cache_support], the body, and the line number. *)
Record CallBlock := {
  cb_name : string;
  cb_obj : pyobj;
  cb_timeout : option Z;
  cb_body : M value;
  cb_lineno : Z
}.

(** [parse(self, parser)]. *)
Definition parse (self : FragmentCacheExtension) (parser : cache_tag)
    : CallBlock :=
  let lineno := tag_lineno parser in
  let name := str_opt (name self) +:+ "+" +:+ str_int lineno in
  {| cb_name := name;
     cb_obj := tag_obj parser;
     cb_timeout := tag_timeout parser;
     cb_body := tag_body parser;
     cb_lineno := lineno |}.

(** What [_cache_support] hands back to the template: the producer's
    bare output in debug mode, otherwise whatever [cached] returned. *)
Inductive rendered :=
  | Direct (v : value)
  | Cached (v : value) (p : provenance).

(** The format ['fragment:%s:%s' % (name, obj_key)]. *)
Definition fragment_key (name obj_key : string) : string :=
  "fragment:" +:+ name +:+ ":" +:+ obj_key.

(** [_cache_support(self, name, obj, timeout, caller)]. *)
Definition _cache_support (name : string) (obj : pyobj)
    (timeout : option Z) (caller : M value) : M rendered :=
  if TEMPLATE_DEBUG settings then
    v ← call caller; mret (Direct v)
  else
    has ← hasattr_query_key obj;
    obj_key ← (if has : bool then call_query_key obj else get_cache_key obj);
    let key := fragment_key name obj_key in
    let flush := make_key ("f:" +:+ key) in
    fk ← call_flush_key obj;
    _ ← add_to_flush_list [fk] flush;
    '(v, p) ← cached caller key timeout;
    mret (Cached v p).

(** Rendering a parsed block: jinja calls the helper with the node's
    arguments and the body as [caller]. *)
Definition render_block (node : CallBlock) : M rendered :=
  _cache_support (cb_name node) (cb_obj node) (cb_timeout node) (cb_body node).

(** ** The entity and count bindings, modelled from the specification *)

(** Modelled from the spec: the entity key of the Key Deriver, with the
    layout [tests/test_cache.py] checks (['o:testapp.addon:1']);
    [caching/base.py] is missing from the tree. *)
Definition entity_key (e : entity) : string :=
  "o:" +:+ type_name e +:+ ":" +:+ str_int (identity e).

(** Modelled from the spec: [caching.base.flush_key] on a raw key,
    ["flush:" + EntityKey]. *)
Definition entity_flush_key (key : string) : string := "flush:" +:+ key.

(** Modelled from the spec: the relational metadata the ORM hands to
    the hooks: the live entities and, for each, the entities its
    declared foreign keys point to. *)
Record orm := Orm {
  entities : list entity;
  foreign_keys : entity → list entity
}.

(** Modelled from the spec: "an enumeration of related entities (direct
    foreign keys, both directions)". *)
Definition related_entities (db : orm) (e : entity) : list entity :=
  foreign_keys db e ++
  filter (λ c, e ∈ foreign_keys db c) (entities db).

(** Modelled from the spec: the flush-list manager's [invalidate]:
    "for each entity key, read its FlushList, delete every cache key it
    contains, then delete the FlushList entry itself", and the entity's
    own object key as well. *)
Definition invalidate (entity_keys : list string) : M unit :=
  for_each (λ ek,
    ks ← read_flush_list (entity_flush_key ek);
    _ ← for_each cache_delete (elements ks);
    _ ← cache_delete (entity_flush_key ek);
    cache_delete ek) entity_keys.

(** Modelled from the spec: the write hook of the entity binding,
    [invalidate({entity_key(E)} ∪ related_entity_keys(E))]. *)
Definition on_after_write (e : entity) (related : list entity) : M unit :=
  invalidate (entity_key e :: (entity_key <$> related)).

(** Modelled from the spec: a save of [e] as the caching layer sees it;
    the ORM, which is outside the tree, fires the write hook with its
    enumeration of related entities. *)
Definition save (db : orm) (e : entity) : M unit :=
  on_after_write e (related_entities db e).

(** The entities of a result set. *)
Definition rows_entities (v : value) : list entity :=
  match v with
  | VRows rs => rs.*1
  | _ => []
  end.

(** Modelled from the spec: the query binding: run the query through
    the cache-aside executor, then register the query's cache key
    against the flush key of every entity in the result. *)
Definition execute_query (qk : string) (producer : M value)
    (timeout : option Z) : M (value * provenance) :=
  '(v, p) ← cached producer qk timeout;
  _ ← add_to_flush_list
        ((λ e, entity_flush_key (entity_key e)) <$> rows_entities v)
        (cached_key qk);
  mret (v, p).

(** Modelled from the spec: the count binding: no cache-aside call at
    all when [CACHE_COUNT_TIMEOUT] is [None], otherwise cache-aside with
    that timeout. *)
Definition count (count_key : string) (compute : M value) : M value :=
  match CACHE_COUNT_TIMEOUT settings with
  | None => call compute
  | Some t => '(v, _) ← cached compute count_key (Some t); mret v
  end.

(** ** Specification-side notions used in the statements *)

(** The dependency key the fragment key is built from: [query_key()]
    when the object has it, else [cache_key]. *)
Definition dependency_key (obj : pyobj) : option string :=
  match query_key obj with
  | Some k => Some k
  | None => cache_key obj
  end.

(** The attribute accesses [_cache_support] makes on the dependency
    object before it touches the cache. *)
Definition probe_events (obj : pyobj) : list event :=
  [EHasattr "query_key";
   match query_key obj with
   | Some _ => ECallMethod "query_key"
   | None => EGetattr "cache_key"
   end;
   ECallMethod "flush_key"].

(** The flush list held by a store under a flush key. *)
Definition flush_list_of (s : gmap string entry) (fk : string) : gset string :=
  as_flush_list (ent_value <$> s !! fk).

(** Appending to the call record of a world. *)
Definition logged (w : world) (evs : list event) : world :=
  World (store w) (trace w ++ evs).

(** A cache-aside result tagged as freshly computed. *)
Definition tag_computed (r : result value) : result (value * provenance) :=
  match r with
  | Ok v => Ok (v, computed)
  | Raise e => Raise e
  end.

(** Events through which the cache backend or the flush lists are
    reached. *)
Definition is_cache_event (e : event) : bool :=
  match e with
  | EAddToFlushList _ _ | ECached _ _
  | ECacheGet _ | ECacheSet _ _ _ | ECacheDelete _ => true
  | _ => false
  end.

(** The world in which the helper looks the fragment up: the flush list
    of the dependency already holds the fragment's backend key, and the
    registration is on record before the lookup. *)
Definition registered_store (w : world) (fk flush : string)
    : gmap string entry :=
  <[fk := Entry (VSet ({[flush]} ∪ flush_list_of (store w) fk)) None]>
    (store w).

Definition lookup_world (w : world) (obj : pyobj) (fk key flush : string)
    (t : option Z) : world :=
  World (registered_store w fk flush)
        (trace w ++ probe_events obj ++
         [EAddToFlushList [fk] flush; ECacheGet fk;
          ECacheSet fk (VSet ({[flush]} ∪ flush_list_of (store w) fk)) None;
          ECached key t; ECacheGet flush]).

(** One round of [invalidate], and the whole loop, on the store. *)
Definition invalidate_one_store (s : gmap string entry) (ek : string)
    : gmap string entry :=
  delete ek
    (delete (entity_flush_key ek)
       (foldl (λ s k, delete k s) s
          (elements (flush_list_of s (entity_flush_key ek))))).

Definition invalidate_store (l : list string) (s : gmap string entry)
    : gmap string entry :=
  foldl invalidate_one_store s l.

(** What the cache-aside executor records before it calls the
    producer on a miss. *)
Definition cached_prelude (key : string) (t : option Z) : list event :=
  ECached key t ::
  (if TEMPLATE_DEBUG settings then [] else [ECacheGet (cached_key key)]) ++
  [ECaller].

(** ** Fixtures, after [tests/test_cache.py] *)

(** A key prefix, as a deployment would configure it. *)
Definition prefixed (k : string) : string := "cm:" +:+ k.

Definition caching_on : Settings :=
  {| TEMPLATE_DEBUG := false; CACHE_COUNT_TIMEOUT := Some 60%Z |}.

Definition debug_on : Settings :=
  {| TEMPLATE_DEBUG := true; CACHE_COUNT_TIMEOUT := None |}.

Definition count_uncached : Settings :=
  {| TEMPLATE_DEBUG := false; CACHE_COUNT_TIMEOUT := None |}.

Definition cold : world := World ∅ [].

Definition addon1 : entity := Entity "testapp.addon" 1.
Definition addon2 : entity := Entity "testapp.addon" 2.
Definition user1 : entity := Entity "testapp.user" 1.
Definition user2 : entity := Entity "testapp.user" 2.

(** Addon 1 has two authors; nothing else is related. *)
Definition testapp : orm :=
  Orm [addon1; addon2; user1; user2]
      (λ e, if decide (e = addon1) then [user1; user2] else []).

(** A queryset: [query_key()] and [flush_key()], no [cache_key]. *)
Definition all_addons : pyobj :=
  PyObj (Some "qs:addons") None (Some "flush:qs:addons").

(** A model instance: [cache_key] and [flush_key()]. *)
Definition addon1_obj : pyobj :=
  PyObj None (Some (entity_key addon1))
        (Some (entity_flush_key (entity_key addon1))).

(** An object that answers [query_key()] and nothing else. *)
Definition query_key_only : pyobj := PyObj (Some "qs:addons") None None.

(** The extension after preprocessing [index.html]. *)
Definition index_html : FragmentCacheExtension :=
  (preprocess {| name := None |} "" (Some "index") (Some "index.html")).1.

(** The extension after [env.from_string]: neither name nor filename. *)
Definition from_string : FragmentCacheExtension :=
  (preprocess {| name := None |} "" None None).1.

Definition rows_v1 : value := VRows [(addon1, "42"); (addon2, "42")].
Definition rows_v2 : value := VRows [(addon1, "17"); (addon2, "42")].

(** * Proofs *)

(** ** Running the monad *)

Lemma bind_run {A B} (m : M A) (f : A → M B) w :
  (m ≫= f) w =
  match m w with
  | (Ok a, w') => f a w'
  | (Raise e, w') => (Raise e, w')
  end.
Proof. reflexivity. Qed.

Lemma log_run e w : log e w = (Ok tt, logged w [e]).
Proof. reflexivity. Qed.

Lemma logged_logged w evs1 evs2 :
  logged (logged w evs1) evs2 = logged w (evs1 ++ evs2).
Proof. unfold logged; simpl. by rewrite <- app_assoc. Qed.

(** Unfolds the primitive commands down to worlds. *)
Ltac run :=
  repeat (unfold hasattr_query_key, call_query_key, get_cache_key,
            call_flush_key, call, log, gets, modify, raise, cache_get,
            cache_set, cache_delete, read_flush_list, logged,
            mbind, M_bind, mret, M_ret in *; simpl in *).

(** Registering one key against one flush key: the flush list is read,
    extended and written back. *)
Lemma add_to_flush_list_one fk k w :
  add_to_flush_list [fk] k w =
  (Ok tt,
   World (<[fk := Entry (VSet ({[k]} ∪ flush_list_of (store w) fk)) None]>
            (store w))
         (trace w ++
          [EAddToFlushList [fk] k; ECacheGet fk;
           ECacheSet fk (VSet ({[k]} ∪ flush_list_of (store w) fk)) None])).
Proof.
  unfold add_to_flush_list, flush_list_of; run.
  by rewrite <- !app_assoc.
Qed.

(** Outside debug mode, once the dependency object yields its keys,
    the helper is the registration followed by the cache-aside call. *)
Lemma cache_support_run nm obj t caller w dk fk :
  TEMPLATE_DEBUG settings = false →
  dependency_key obj = Some dk →
  flush_key obj = Some fk →
  _cache_support nm obj t caller w =
  (_ ← add_to_flush_list [fk] (cached_key (fragment_key nm dk));
   '(v, p) ← cached caller (fragment_key nm dk) t;
   mret (Cached v p)) (logged w (probe_events obj)).
Proof.
  intros Hdbg Hdk Hfk.
  unfold _cache_support, dependency_key in *.
  rewrite Hdbg.
  destruct obj as [[qk|] ck fl]; simpl in *; simplify_eq.
  - rewrite !bind_run. run. by rewrite <- !app_assoc.
  - rewrite !bind_run. run. by rewrite <- !app_assoc.
Qed.

(** ** Strings *)

Lemma append_cons a (s1 s2 : string) :
  String a s1 +:+ s2 = String a (s1 +:+ s2).
Proof. reflexivity. Qed.

Lemma append_assoc (s1 s2 s3 : string) :
  (s1 +:+ s2) +:+ s3 = s1 +:+ (s2 +:+ s3).
Proof.
  induction s1 as [|a s1 IH]; [reflexivity|].
  by rewrite !append_cons, IH.
Qed.

(** ** The fragment key (C3) *)

(** C3.  Whenever the cache tag consults the cache for a block (debug
    off, dependency object yielding its keys), the key it passes to the
    cache-aside executor is
    ["fragment:" + (filename or name) + "+" + line + ":" + dependency key],
    the dependency key being [query_key()] when the object has it and
    [cache_key] otherwise; the key it registers is that key as the
    executor stores it. *)
Theorem fragment_cache_key_used self source nm filename tag w dk fk :
  TEMPLATE_DEBUG settings = false →
  dependency_key (tag_obj tag) = Some dk →
  flush_key (tag_obj tag) = Some fk →
  let node := parse (preprocess self source nm filename).1 tag in
  let key := "fragment:" +:+ str_opt (py_or filename nm) +:+ "+" +:+
             str_int (tag_lineno tag) +:+ ":" +:+ dk in
  render_block node w =
  (_ ← add_to_flush_list [fk] (make_key ("f:" +:+ key));
   '(v, p) ← cached (tag_body tag) key (tag_timeout tag);
   mret (Cached v p)) (logged w (probe_events (tag_obj tag))).
Proof.
  intros Hdbg Hdk Hfk node key.
  unfold render_block, node; simpl.
  rewrite (cache_support_run _ _ _ _ _ dk fk) by done.
  unfold cached_key, fragment_key.
  replace ("fragment:" +:+
           (str_opt (py_or filename nm) +:+ "+" +:+ str_int (tag_lineno tag))
           +:+ ":" +:+ dk) with key; [done|].
  unfold key. by rewrite !append_assoc.
Qed.

(** ** Debug mode (C6) *)

(** C6.  With [TEMPLATE_DEBUG] set, the helper is exactly a call of the
    block: the output is the block's, and nothing but the block itself
    touches the world, so no cache get, no cache set and no flush-list
    registration is issued (for a block that renders a constant, the
    store is untouched and the only recorded call is the block's). *)
Theorem debug_bypasses_cache nm obj t caller w :
  TEMPLATE_DEBUG settings = true →
  _cache_support nm obj t caller w =
    match caller (logged w [ECaller]) with
    | (Ok v, w') => (Ok (Direct v), w')
    | (Raise e, w') => (Raise e, w')
    end
  ∧ ∀ v, _cache_support nm obj t (mret v) w =
         (Ok (Direct v), logged w [ECaller]).
Proof.
  intros Hdbg. unfold _cache_support. rewrite Hdbg. split.
  - run. by destruct (caller _) as [[v|e] w'].
  - done.
Qed.

(** ** Dependency-key resolution (C9, C5) *)

(** C9.  [query_key()] takes precedence: for an object that has the
    method, the helper behaves the same whatever [cache_key] is, even
    absent, and the fragment key is built from [query_key()]; the
    attribute [cache_key] is read, and needed, only when there is no
    [query_key]. *)
Theorem query_key_takes_precedence nm qk ck fl t caller w :
  _cache_support nm (PyObj (Some qk) ck fl) t caller w =
  _cache_support nm (PyObj (Some qk) None fl) t caller w
  ∧ (TEMPLATE_DEBUG settings = false → ∀ fk, fl = Some fk →
     _cache_support nm (PyObj (Some qk) ck fl) t caller w =
     (_ ← add_to_flush_list [fk] (cached_key (fragment_key nm qk));
      '(v, p) ← cached caller (fragment_key nm qk) t;
      mret (Cached v p))
       (logged w [EHasattr "query_key"; ECallMethod "query_key";
                  ECallMethod "flush_key"]))
  ∧ (TEMPLATE_DEBUG settings = false →
     _cache_support nm (PyObj None None fl) t caller w =
     (Raise (AttributeError "cache_key"),
      logged w [EHasattr "query_key"; EGetattr "cache_key"])).
Proof.
  split; [|split].
  - unfold _cache_support. by destruct (TEMPLATE_DEBUG settings).
  - intros Hdbg fk ->.
    by rewrite (cache_support_run _ _ _ _ _ qk fk).
  - intros Hdbg. unfold _cache_support. rewrite Hdbg.
    run. by rewrite <- !app_assoc.
Qed.

(** The cache-aside executor returns whenever the producer does. *)
Lemma cached_total producer key t w :
  (∀ w', ∃ v w'', producer w' = (Ok v, w'')) →
  ∃ r w', cached producer key t w = (Ok r, w').
Proof.
  intros Hp. unfold cached. rewrite bind_run, log_run.
  destruct (TEMPLATE_DEBUG settings).
  - unfold call. rewrite !bind_run, log_run.
    destruct (Hp (logged (logged w [ECached key t]) [ECaller]))
      as (v & w' & ->). by eexists _, _.
  - rewrite bind_run. unfold cache_get at 1. rewrite bind_run, log_run.
    unfold gets.
    destruct (ent_value <$> _) as [v|]; [by eexists _, _|].
    unfold call. rewrite !bind_run, log_run.
    match goal with |- context [producer ?w0] =>
      destruct (Hp w0) as (v & w' & ->) end.
    by eexists _, _.
Qed.

(** C5 (as amended).  Outside debug mode an object exposing
    [query_key()] must expose [flush_key()] too: without it the call
    raises [AttributeError]; with both, no [cache_key] is needed and
    the call returns whenever the block does. *)
Theorem query_key_needs_flush_key nm qk ck fl t caller w :
  TEMPLATE_DEBUG settings = false →
  (fl = None →
   _cache_support nm (PyObj (Some qk) ck fl) t caller w =
   (Raise (AttributeError "flush_key"),
    logged w [EHasattr "query_key"; ECallMethod "query_key";
              ECallMethod "flush_key"]))
  ∧ (is_Some fl →
     (∀ w', ∃ v w'', caller w' = (Ok v, w'')) →
     ∃ r w', _cache_support nm (PyObj (Some qk) ck fl) t caller w
             = (Ok r, w')).
Proof.
  intros Hdbg. split.
  - intros ->. unfold _cache_support. rewrite Hdbg.
    run. by rewrite <- !app_assoc.
  - intros [fk ->] Hcaller.
    rewrite (cache_support_run _ _ _ _ _ qk fk) by done.
    rewrite bind_run, add_to_flush_list_one, bind_run.
    match goal with |- context [cached caller ?k t ?w0] =>
      destruct (cached_total caller k t w0 Hcaller) as ([v p] & w' & ->) end.
    by eexists _, _.
Qed.

(** ** Registration and lookup order (C10), round trip (C7) *)

Lemma cache_support_branch nm obj t caller w dk fk :
  TEMPLATE_DEBUG settings = false →
  dependency_key obj = Some dk →
  flush_key obj = Some fk →
  let key := fragment_key nm dk in
  let flush := make_key ("f:" +:+ key) in
  _cache_support nm obj t caller w =
  match ent_value <$> registered_store w fk flush !! flush with
  | Some v => (Ok (Cached v from_cache), lookup_world w obj fk key flush t)
  | None =>
      (v ← call caller; _ ← cache_set flush v t; mret (Cached v computed))
        (lookup_world w obj fk key flush t)
  end.
Proof.
  intros Hdbg Hdk Hfk key flush.
  rewrite (cache_support_run _ _ _ _ _ dk fk) by done.
  rewrite bind_run, add_to_flush_list_one. fold key.
  unfold cached_key. fold flush.
  rewrite bind_run. unfold cached. rewrite Hdbg.
  rewrite bind_run, log_run, bind_run.
  unfold cache_get at 1. rewrite bind_run, log_run. unfold gets.
  unfold lookup_world, registered_store, logged, cached_key; simpl.
  fold flush. rewrite <- !app_assoc; simpl.
  destruct (ent_value <$> _) as [v|]; [done|].
  rewrite !bind_run.
  destruct (call caller _) as [[v|e] w']; [|done].
  rewrite !bind_run. by destruct (cache_set _ _ _ _) as [[[]|e] w''].
Qed.

Lemma registered_store_listed w fk flush :
  flush ∈ flush_list_of (registered_store w fk flush) fk.
Proof.
  unfold flush_list_of, registered_store.
  rewrite lookup_insert_eq; simpl.
  by apply elem_of_union_l, elem_of_singleton.
Qed.

(** C10.  With the debug flag off, the flush-list registration of the
    fragment's backend key is issued before the fragment is looked up,
    on a hit as on a miss: at the lookup the flush list already holds
    the key and the record shows the registration first; an invocation
    whose dependency object lacks a key raises before any cache
    operation, so no fragment is served or stored unregistered. *)
Theorem registration_precedes_lookup nm obj t caller w :
  TEMPLATE_DEBUG settings = false →
  (∀ dk fk, dependency_key obj = Some dk → flush_key obj = Some fk →
     let key := fragment_key nm dk in
     let flush := make_key ("f:" +:+ key) in
     let w1 :=
       World (registered_store w fk flush)
             (trace w ++ probe_events obj ++
              [EAddToFlushList [fk] flush; ECacheGet fk;
               ECacheSet fk
                 (VSet ({[flush]} ∪ flush_list_of (store w) fk)) None;
               ECached key t; ECacheGet flush]) in
     flush ∈ flush_list_of (store w1) fk
     ∧ _cache_support nm obj t caller w =
       match ent_value <$> store w1 !! flush with
       | Some v => (Ok (Cached v from_cache), w1)
       | None =>
           (v ← call caller; _ ← cache_set flush v t;
            mret (Cached v computed)) w1
       end)
  ∧ (dependency_key obj = None ∨ flush_key obj = None →
     ∃ a evs,
       _cache_support nm obj t caller w =
         (Raise (AttributeError a), logged w evs)
       ∧ Forall (λ e, is_cache_event e = false) evs).
Proof.
  intros Hdbg. split.
  - intros dk fk Hdk Hfk key flush w1. split.
    + apply registered_store_listed.
    + by apply cache_support_branch.
  - intros Hmiss. unfold _cache_support, dependency_key in *.
    rewrite Hdbg.
    destruct obj as [[qk|] [ck|] [fk|]]; simpl in *;
      destruct Hmiss as [?|?]; simplify_eq; run;
      rewrite <- ?app_assoc; simpl;
      eexists _, _; (split; [reflexivity|]); by repeat constructor.
Qed.

(** C7.  With the debug flag off, when a block has been rendered (the
    dependency's flush key being distinct from the fragment's backend
    key), rendering it again with the same dependency and nothing in
    between returns the very same output, served from the cache: the
    provenance is [from_cache] and the record of the second render
    contains no call of the block. *)
Theorem second_render_from_cache node w dk fk r1 w1 :
  TEMPLATE_DEBUG settings = false →
  dependency_key (cb_obj node) = Some dk →
  flush_key (cb_obj node) = Some fk →
  fk ≠ cached_key (fragment_key (cb_name node) dk) →
  render_block node w = (Ok r1, w1) →
  let key := fragment_key (cb_name node) dk in
  ∃ v p,
    r1 = Cached v p
    ∧ render_block node w1 =
      (Ok (Cached v from_cache),
       World (registered_store w1 fk (cached_key key))
             (trace w1 ++ probe_events (cb_obj node) ++
              [EAddToFlushList [fk] (cached_key key); ECacheGet fk;
               ECacheSet fk
                 (VSet ({[cached_key key]} ∪ flush_list_of (store w1) fk))
                 None;
               ECached key (cb_timeout node); ECacheGet (cached_key key)])).
Proof.
  intros Hdbg Hdk Hfk Hne Hfirst key.
  unfold render_block in *.
  pose proof (cache_support_branch (cb_name node) (cb_obj node)
                (cb_timeout node) (cb_body node)) as Hbranch.
  rewrite (Hbranch w dk fk) in Hfirst by done.
  rewrite (Hbranch w1 dk fk) by done.
  fold key in Hfirst |- *. unfold cached_key in *.
  set (flush := make_key ("f:" +:+ key)) in *.
  assert (∀ w', registered_store w' fk flush !! flush = store w' !! flush)
    as Hreg.
  { intros w'. unfold registered_store. by rewrite lookup_insert_ne. }
  rewrite Hreg in Hfirst. rewrite Hreg.
  destruct (store w !! flush) as [[v0 t0]|] eqn:Hw; simpl in Hfirst.
  - inversion Hfirst; subst r1 w1. exists v0, from_cache. split; [done|].
    unfold lookup_world at 1. simpl. rewrite Hreg, Hw. done.
  - rewrite !bind_run in Hfirst.
    destruct (call _ _) as [[v|e] w2]; [|done].
    rewrite bind_run in Hfirst. run.
    inversion Hfirst; subst r1 w1; simpl.
    exists v, computed. split; [done|].
    by rewrite lookup_insert_eq.
Qed.

(** ** Call sites and key collisions (C4) *)

Lemma list_ascii_app (s1 s2 : string) :
  String.list_ascii_of_string (s1 +:+ s2) =
  String.list_ascii_of_string s1 ++ String.list_ascii_of_string s2.
Proof.
  induction s1 as [|a s1 IH]; [reflexivity|].
  rewrite append_cons; simpl. by rewrite IH.
Qed.

Lemma list_ascii_inj (s1 s2 : string) :
  String.list_ascii_of_string s1 = String.list_ascii_of_string s2 → s1 = s2.
Proof.
  intros H. rewrite <- (String.string_of_list_ascii_of_string s1),
    <- (String.string_of_list_ascii_of_string s2). by rewrite H.
Qed.

Lemma append_inv_tail (s1 s2 s : string) : s1 +:+ s = s2 +:+ s → s1 = s2.
Proof.
  intros H. apply list_ascii_inj.
  apply (f_equal String.list_ascii_of_string) in H.
  rewrite !list_ascii_app in H. by apply app_inv_tail in H.
Qed.

(** Splitting at a separator that does not occur to its right. *)
Lemma split_at_last {A} (c : A) (l1 l2 r1 r2 : list A) :
  c ∉ r1 → c ∉ r2 →
  l1 ++ c :: r1 = l2 ++ c :: r2 → l1 = l2 ∧ r1 = r2.
Proof.
  intros Hr1 Hr2. revert l2.
  induction l1 as [|x l1 IH]; intros [|y l2] Heq; simpl in Heq.
  - by inversion Heq.
  - inversion Heq; subst. exfalso. apply Hr1.
    apply elem_of_app. right. by left.
  - inversion Heq; subst. exfalso. apply Hr2.
    apply elem_of_app. right. by left.
  - inversion Heq as [[Hx Htl]]. destruct (IH l2 Htl) as [-> ->]. done.
Qed.

(** The decimal digits of a number contain no plus sign. *)
Lemma pretty_N_go_no_plus x s :
  "+"%char ∉ String.list_ascii_of_string s →
  "+"%char ∉ String.list_ascii_of_string (pretty_N_go x s).
Proof.
  revert s. induction (N.lt_wf_0 x) as [x _ IH]; intros s Hs.
  assert (x = 0 ∨ 0 < x)%N as [->|Hpos] by lia.
  - by rewrite pretty_N_go_0.
  - rewrite pretty_N_go_step by done. apply IH.
    { by apply N.div_lt. }
    simpl. rewrite not_elem_of_cons. split; [|done].
    unfold pretty_N_char. by repeat case_match.
Qed.

Lemma str_int_no_plus n : "+"%char ∉ String.list_ascii_of_string (str_int n).
Proof.
  assert (∀ x : N, "+"%char ∉ String.list_ascii_of_string (pretty x)) as HN.
  { intros x. unfold pretty, pretty_N. case_decide.
    - simpl. rewrite not_elem_of_cons. split; [done|apply not_elem_of_nil].
    - apply pretty_N_go_no_plus. simpl. apply not_elem_of_nil. }
  unfold str_int, pretty, pretty_Z. destruct n as [|p|p].
  - simpl. rewrite not_elem_of_cons. split; [done|apply not_elem_of_nil].
  - apply HN.
  - rewrite list_ascii_app. simpl. rewrite not_elem_of_cons.
    split; [done|]. apply HN.
Qed.

(** C4 (as amended).  For a fixed dependency key the fragment key
    identifies the call site up to the formatted template name and the
    line of the tag, and no further: two tags get the same key exactly
    when they sit on the same line of templates with the same formatted
    name. *)
Theorem fragment_key_collision_iff self1 self2 tag1 tag2 dk :
  fragment_key (cb_name (parse self1 tag1)) dk =
  fragment_key (cb_name (parse self2 tag2)) dk
  ↔ str_opt (name self1) = str_opt (name self2)
     ∧ tag_lineno tag1 = tag_lineno tag2.
Proof.
  unfold fragment_key, parse; simpl. split.
  - intros Heq.
    apply (inj (String.app "fragment:")) in Heq.
    apply append_inv_tail in Heq.
    apply (f_equal String.list_ascii_of_string) in Heq.
    rewrite !list_ascii_app in Heq. simpl in Heq.
    apply split_at_last in Heq as [Hn Hl]; try apply str_int_no_plus.
    split; [by apply list_ascii_inj|].
    apply list_ascii_inj in Hl. by apply (inj pretty) in Hl.
  - by intros [-> ->].
Qed.

(** ** The flush-list manager *)

Lemma for_each_cons {A} (f : A → M unit) x l w :
  for_each f (x :: l) w =
  match f x w with
  | (Ok _, w') => for_each f l w'
  | (Raise e, w') => (Raise e, w')
  end.
Proof. reflexivity. Qed.

Lemma cache_delete_run k w :
  cache_delete k w =
  (Ok tt, World (delete k (store w)) (trace w ++ [ECacheDelete k])).
Proof. reflexivity. Qed.

Lemma read_flush_list_run fk w :
  read_flush_list fk w =
  (Ok (flush_list_of (store w) fk), logged w [ECacheGet fk]).
Proof. reflexivity. Qed.

(** Deleting a batch of keys, as the loop over a flush list does. *)
Lemma for_each_delete_run (l : list string) w :
  for_each cache_delete l w =
  (Ok tt,
   World (foldl (λ s k, delete k s) (store w) l)
         (trace w ++ (ECacheDelete <$> l))).
Proof.
  revert w. induction l as [|k l IH]; intros w.
  - destruct w; simpl. unfold mret, M_ret. by rewrite app_nil_r.
  - rewrite for_each_cons, cache_delete_run, IH. simpl.
    by rewrite <- app_assoc.
Qed.

Lemma foldl_delete_absent (l : list string) (s : gmap string entry) k :
  s !! k = None → foldl (λ s k, delete k s) s l !! k = None.
Proof.
  revert s. induction l as [|k' l IH]; intros s Hk; simpl; [done|].
  apply IH. rewrite lookup_delete_None. by right.
Qed.

Lemma foldl_delete_elem (l : list string) (s : gmap string entry) k :
  k ∈ l → foldl (λ s k, delete k s) s l !! k = None.
Proof.
  revert s. induction l as [|k' l IH]; intros s Hk; simpl.
  - by apply elem_of_nil in Hk.
  - apply elem_of_cons in Hk as [->|Hk].
    + apply foldl_delete_absent, lookup_delete_eq.
    + by apply IH.
Qed.

Lemma invalidate_run l w :
  ∃ evs,
    invalidate l w =
      (Ok tt, World (invalidate_store l (store w)) (trace w ++ evs))
    ∧ ∀ ek, ek ∈ l → ECacheDelete ek ∈ evs.
Proof.
  (* [tauto] below must not reach for the section's parameters *)
  clear make_key settings.
  revert w. induction l as [|ek l IH]; intros w.
  - exists []. split.
    + destruct w; simpl. unfold mret, M_ret. by rewrite app_nil_r.
    + intros ek Hek. by apply elem_of_nil in Hek.
  - unfold invalidate. rewrite for_each_cons.
    rewrite bind_run, read_flush_list_run, bind_run, for_each_delete_run.
    rewrite bind_run, cache_delete_run, cache_delete_run. simpl.
    fold (invalidate l).
    match goal with |- context [invalidate l ?w0] =>
      destruct (IH w0) as (evs & -> & Hevs) end.
    simpl. eexists. split.
    + rewrite <- !app_assoc. reflexivity.
    + intros ek' Hek'. rewrite !elem_of_app, !elem_of_cons.
      apply elem_of_cons in Hek' as [->|Hek']; [tauto|].
      pose proof (Hevs ek' Hek'). tauto.
Qed.

Lemma invalidate_one_store_absent s ek k :
  s !! k = None → invalidate_one_store s ek !! k = None.
Proof.
  intros Hk. unfold invalidate_one_store.
  rewrite !lookup_delete_None. right. right.
  by apply foldl_delete_absent.
Qed.

Lemma invalidate_store_absent l s k :
  s !! k = None → invalidate_store l s !! k = None.
Proof.
  revert s. induction l as [|ek l IH]; intros s Hk; [done|].
  apply IH. by apply invalidate_one_store_absent.
Qed.

Lemma invalidate_store_cons ek l s :
  invalidate_store (ek :: l) s = invalidate_store l (invalidate_one_store s ek).
Proof. reflexivity. Qed.

(** The first key of the batch has its dependents read off the store
    as it was before the write. *)
Lemma invalidate_store_head_dependents ek l s k :
  k ∈ flush_list_of s (entity_flush_key ek) →
  invalidate_store (ek :: l) s !! k = None.
Proof.
  intros Hk. rewrite invalidate_store_cons. apply invalidate_store_absent.
  unfold invalidate_one_store. rewrite !lookup_delete_None. right. right.
  apply foldl_delete_elem. by apply elem_of_elements.
Qed.

Lemma invalidate_store_keys l s ek :
  ek ∈ l →
  invalidate_store l s !! ek = None
  ∧ invalidate_store l s !! entity_flush_key ek = None.
Proof.
  revert s. induction l as [|ek' l IH]; intros s Hek.
  - by apply elem_of_nil in Hek.
  - rewrite invalidate_store_cons.
    apply elem_of_cons in Hek as [->|Hek]; [|by apply IH].
    split; apply invalidate_store_absent; unfold invalidate_one_store.
    + apply lookup_delete_eq.
    + rewrite lookup_delete_None. right. apply lookup_delete_eq.
Qed.

(** With nothing stored under the key, the executor's answer is the
    producer's, run afresh. *)
Lemma cached_fresh producer key t w :
  store w !! cached_key key = None →
  (cached producer key t w).1 =
  tag_computed (producer (logged w (cached_prelude key t))).1.
Proof.
  intros Hmiss. unfold cached, cached_prelude.
  rewrite bind_run, log_run.
  destruct (TEMPLATE_DEBUG settings).
  - unfold call. rewrite !bind_run, log_run, logged_logged. simpl.
    by destruct (producer _) as [[v|e] w'].
  - rewrite bind_run. unfold cache_get at 1.
    rewrite bind_run, log_run. unfold gets. simpl. rewrite Hmiss. simpl.
    unfold call. rewrite !bind_run, log_run. unfold logged; simpl.
    rewrite <- !app_assoc. simpl.
    by destruct (producer _) as [[v|e] w'].
Qed.

(** Registration leaves the key on every flush list it was given. *)
Lemma register_loop_spec (fks : list string) k w :
  ∃ w',
    for_each (λ fk, ks ← read_flush_list fk;
                    cache_set fk (VSet ({[k]} ∪ ks)) None) fks w
      = (Ok tt, w')
    ∧ (∀ fk, fk ∈ fks → k ∈ flush_list_of (store w') fk)
    ∧ (∀ fk, k ∈ flush_list_of (store w) fk →
             k ∈ flush_list_of (store w') fk).
Proof.
  revert w. induction fks as [|fk fks IH]; intros w.
  - exists w. split; [done|]. split; [|done].
    intros fk Hfk. by apply elem_of_nil in Hfk.
  - rewrite for_each_cons, bind_run, read_flush_list_run.
    unfold cache_set. rewrite bind_run, log_run. unfold modify. simpl.
    match goal with |- context [for_each _ fks ?w0] =>
      destruct (IH w0) as (w' & Hrun & Hin & Hkeep) end.
    simpl in Hkeep.
    assert (k ∈ flush_list_of
              (<[fk := Entry (VSet ({[k]} ∪ flush_list_of (store w) fk)) None]>
                 (store w)) fk) as Hnew.
    { unfold flush_list_of at 1. rewrite lookup_insert_eq. simpl.
      apply elem_of_union_l, elem_of_singleton. done. }
    exists w'. split; [exact Hrun|]. split.
    + intros fk' Hfk'. apply elem_of_cons in Hfk' as [->|Hfk'].
      * by apply Hkeep.
      * by apply Hin.
    + intros fk' Hfk'. apply Hkeep.
      destruct (decide (fk = fk')) as [->|Hne]; [done|].
      unfold flush_list_of in *. by rewrite lookup_insert_ne.
Qed.

Lemma add_to_flush_list_spec fks k w :
  ∃ w',
    add_to_flush_list fks k w = (Ok tt, w')
    ∧ ∀ fk, fk ∈ fks → k ∈ flush_list_of (store w') fk.
Proof.
  unfold add_to_flush_list. rewrite bind_run, log_run.
  destruct (register_loop_spec fks k (logged w [EAddToFlushList fks k]))
    as (w' & Hrun & Hin & _).
  exists w'. by split.
Qed.

(** A read that returned [e] has its backend key on [e]'s flush
    list. *)
Lemma execute_query_registers qk producer t w0 v p w e :
  execute_query qk producer t w0 = (Ok (v, p), w) →
  e ∈ rows_entities v →
  cached_key qk ∈ flush_list_of (store w) (entity_flush_key (entity_key e)).
Proof.
  intros Hrun He. unfold execute_query in Hrun.
  rewrite bind_run in Hrun.
  destruct (cached producer qk t w0) as [[[v' p']|ex] w1]; [|done].
  rewrite bind_run in Hrun.
  destruct (add_to_flush_list_spec
              ((λ e, entity_flush_key (entity_key e)) <$> rows_entities v')
              (cached_key qk) w1) as (w2 & Hreg & Hin).
  rewrite Hreg in Hrun. unfold mret, M_ret in Hrun.
  inversion Hrun; subst. apply Hin.
  apply list_elem_of_fmap. by exists e.
Qed.

(** ** Writes (C1, C2) *)

Lemma save_run db e w :
  ∃ evs,
    save db e w =
      (Ok tt,
       World (invalidate_store
                (entity_key <$> (e :: related_entities db e)) (store w))
             (trace w ++ evs))
    ∧ ∀ x, x ∈ e :: related_entities db e → ECacheDelete (entity_key x) ∈ evs.
Proof.
  unfold save, on_after_write.
  destruct (invalidate_run (entity_key e :: (entity_key <$> related_entities db e)) w)
    as (evs & Hrun & Hevs).
  exists evs. split; [done|].
  intros x Hx. apply Hevs.
  change (entity_key x ∈ entity_key <$> (e :: related_entities db e)).
  apply list_elem_of_fmap. by exists x.
Qed.

(** C1.  After a write of [e], which always completes, nothing that was
    registered on [e]'s flush list is left in the cache, nor [e]'s own
    entry, nor the flush list itself; in particular the key of any read
    that had returned [e] is gone, and a cache-aside read under a key
    that was registered for [e] is answered by running the producer
    afresh, with provenance [computed]. *)
Theorem write_invalidates_dependents db e w :
  let fk := entity_flush_key (entity_key e) in
  let w' := (save db e w).2 in
  (save db e w).1 = Ok tt
  ∧ store w' !! entity_key e = None
  ∧ store w' !! fk = None
  ∧ (∀ k, k ∈ flush_list_of (store w) fk → store w' !! k = None)
  ∧ (∀ qk producer t w0 v p,
       execute_query qk producer t w0 = (Ok (v, p), w) →
       e ∈ rows_entities v →
       store w' !! cached_key qk = None)
  ∧ (∀ qk producer t,
       cached_key qk ∈ flush_list_of (store w) fk →
       (cached producer qk t w').1 =
       tag_computed (producer (logged w' (cached_prelude qk t))).1).
Proof.
  intros fk w'. destruct (save_run db e w) as (evs & Hrun & _).
  subst w'. rewrite Hrun. simpl.
  assert (∀ k, k ∈ flush_list_of (store w) fk →
               invalidate_store
                 (entity_key e :: (entity_key <$> related_entities db e))
                 (store w) !! k = None) as Hdeps.
  { intros k Hk. by apply invalidate_store_head_dependents. }
  destruct (invalidate_store_keys
              (entity_key e :: (entity_key <$> related_entities db e))
              (store w) (entity_key e)) as [Hown Hfl].
  { apply elem_of_cons. by left. }
  repeat split; try done.
  - intros qk producer t w0 v p Hread He. apply Hdeps.
    by eapply execute_query_registers.
  - intros qk producer t Hk. apply cached_fresh. simpl. by apply Hdeps.
Qed.

(** C2.  A write of [e] invalidates [e] together with exactly the
    entities one declared foreign key away in either direction (those
    [e] points to and those pointing to [e]): for each of them the
    cached copy and the flush list are deleted, and the delete of its
    key is on record. *)
Theorem write_cascades_both_directions db e w :
  let targets := e :: related_entities db e in
  let w' := (save db e w).2 in
  (∀ x, x ∈ targets ↔
        x = e ∨ x ∈ foreign_keys db e
        ∨ (x ∈ entities db ∧ e ∈ foreign_keys db x))
  ∧ save db e w = invalidate (entity_key <$> targets) w
  ∧ (∀ x, x ∈ targets →
       store w' !! entity_key x = None
       ∧ store w' !! entity_flush_key (entity_key x) = None
       ∧ ECacheDelete (entity_key x) ∈ trace w').
Proof.
  intros targets w'. split; [|split].
  - intros x. unfold targets, related_entities.
    rewrite elem_of_cons, elem_of_app, list_elem_of_filter. tauto.
  - done.
  - intros x Hx. destruct (save_run db e w) as (evs & Hrun & Hevs).
    subst w'. rewrite Hrun. simpl.
    destruct (invalidate_store_keys (entity_key <$> targets) (store w)
                (entity_key x)) as [Hown Hfl].
    { apply list_elem_of_fmap. by exists x. }
    repeat split; try done.
    apply elem_of_app. right. by apply Hevs.
Qed.

(** ** Counts (C8) *)

(** C8.  With [CACHE_COUNT_TIMEOUT] unset a count is exactly a call of
    the count computation: the cache-aside executor is not invoked and
    every invocation runs the computation.  With a timeout configured
    (caching enabled, nothing stored yet under the count's key) the
    computed count is stored under that key with exactly that
    timeout. *)
Theorem count_cache_timeout ck compute w :
  (CACHE_COUNT_TIMEOUT settings = None →
   count ck compute w = compute (logged w [ECaller]))
  ∧ (∀ t v wc,
       CACHE_COUNT_TIMEOUT settings = Some t →
       TEMPLATE_DEBUG settings = false →
       store w !! cached_key ck = None →
       compute (logged w [ECached ck (Some t); ECacheGet (cached_key ck);
                          ECaller]) = (Ok v, wc) →
       count ck compute w =
       (Ok v,
        World (<[cached_key ck := Entry v (Some t)]> (store wc))
              (trace wc ++ [ECacheSet (cached_key ck) v (Some t)]))).
Proof.
  split.
  - intros Hnone. unfold count. rewrite Hnone. reflexivity.
  - intros t v wc Ht Hdbg Hmiss Hcompute.
    unfold count. rewrite Ht. rewrite bind_run.
    unfold cached. rewrite Hdbg.
    rewrite bind_run, log_run, bind_run.
    unfold cache_get at 1. rewrite bind_run, log_run. unfold gets.
    simpl. rewrite Hmiss. simpl.
    unfold call. rewrite !bind_run, log_run. unfold logged in *. simpl in *.
    rewrite <- !app_assoc. simpl. rewrite Hcompute.
    reflexivity.
Qed.

(** ** Further properties of the fragment key *)

(** Splitting at a separator that does not occur to its left. *)
Lemma split_at_first {A} (c : A) (l1 l2 r1 r2 : list A) :
  c ∉ l1 → c ∉ l2 →
  l1 ++ c :: r1 = l2 ++ c :: r2 → l1 = l2 ∧ r1 = r2.
Proof.
  revert l2. induction l1 as [|x l1 IH]; intros [|y l2] Hl1 Hl2 Heq;
    simpl in Heq.
  - by inversion Heq.
  - inversion Heq; subst. exfalso. apply Hl2. by left.
  - inversion Heq; subst. exfalso. apply Hl1. by left.
  - inversion Heq as [[Hx Htl]]. subst y.
    apply not_elem_of_cons in Hl1 as [_ Hl1].
    apply not_elem_of_cons in Hl2 as [_ Hl2].
    destruct (IH l2 Hl1 Hl2 Htl) as [-> ->]. done.
Qed.

(** Nor do the decimal digits of a number contain a colon. *)
Lemma pretty_N_go_no_colon x s :
  ":"%char ∉ String.list_ascii_of_string s →
  ":"%char ∉ String.list_ascii_of_string (pretty_N_go x s).
Proof.
  revert s. induction (N.lt_wf_0 x) as [x _ IH]; intros s Hs.
  assert (x = 0 ∨ 0 < x)%N as [->|Hpos] by lia.
  - by rewrite pretty_N_go_0.
  - rewrite pretty_N_go_step by done. apply IH.
    { by apply N.div_lt. }
    simpl. rewrite not_elem_of_cons. split; [|done].
    unfold pretty_N_char. by repeat case_match.
Qed.

Lemma str_int_no_colon n :
  ":"%char ∉ String.list_ascii_of_string (str_int n).
Proof.
  assert (∀ x : N, ":"%char ∉ String.list_ascii_of_string (pretty x)) as HN.
  { intros x. unfold pretty, pretty_N. case_decide.
    - simpl. rewrite not_elem_of_cons. split; [done|apply not_elem_of_nil].
    - apply pretty_N_go_no_colon. simpl. apply not_elem_of_nil. }
  unfold str_int, pretty, pretty_Z. destruct n as [|p|p].
  - simpl. rewrite not_elem_of_cons. split; [done|apply not_elem_of_nil].
  - apply HN.
  - rewrite list_ascii_app. simpl. rewrite not_elem_of_cons.
    split; [done|]. apply HN.
Qed.

(** X1.  When the formatted template names contain no colon, the
    fragment key determines the call site and the dependency key
    together: two keys are equal exactly when template name, line and
    dependency key all agree. *)
Theorem fragment_key_injective self1 self2 tag1 tag2 dk1 dk2 :
  ":"%char ∉ String.list_ascii_of_string (str_opt (name self1)) →
  ":"%char ∉ String.list_ascii_of_string (str_opt (name self2)) →
  fragment_key (cb_name (parse self1 tag1)) dk1 =
  fragment_key (cb_name (parse self2 tag2)) dk2
  ↔ str_opt (name self1) = str_opt (name self2)
     ∧ tag_lineno tag1 = tag_lineno tag2
     ∧ dk1 = dk2.
Proof.
  intros Hc1 Hc2. unfold fragment_key, parse; simpl. split.
  - intros Heq.
    apply (inj (String.app "fragment:")) in Heq.
    apply (f_equal String.list_ascii_of_string) in Heq.
    rewrite !list_ascii_app in Heq. simpl in Heq.
    apply split_at_first in Heq as [Hname Hdk].
    + apply split_at_last in Hname as [Hn Hl]; try apply str_int_no_plus.
      split; [by apply list_ascii_inj|]. split.
      * apply list_ascii_inj in Hl. by apply (inj pretty) in Hl.
      * by apply list_ascii_inj.
    + rewrite elem_of_app, elem_of_cons.
      intros [?|[?|?]]; [done|done|]. by eapply str_int_no_colon.
    + rewrite elem_of_app, elem_of_cons.
      intros [?|[?|?]]; [done|done|]. by eapply str_int_no_colon.
  - by intros (-> & -> & ->).
Qed.

Lemma append_not_self (s : string) a (r : string) : s ≠ s +:+ String a r.
Proof.
  intros Heq. apply (f_equal String.list_ascii_of_string) in Heq.
  rewrite list_ascii_app in Heq. simpl in Heq.
  rewrite <- (app_nil_r (String.list_ascii_of_string s)) in Heq at 1.
  by apply app_inv_head in Heq.
Qed.

(** X2.  Without that restriction the key is ambiguous: whatever the
    template, the line and the keys, a tag over a dependency key that
    itself spells ["<x>+<line>:<d>"] gets the key of a tag in another
    template, whose name absorbs the first call site, over the
    dependency key [<d>]. *)
Theorem fragment_key_ambiguous self1 tag1 tag2 (x d : string) :
  let self2 :=
    {| name := Some (str_opt (name self1) +:+ "+" +:+
                     str_int (tag_lineno tag1) +:+ ":" +:+ x) |} in
  str_opt (name self1) ≠ str_opt (name self2)
  ∧ fragment_key (cb_name (parse self1 tag1))
      (x +:+ "+" +:+ str_int (tag_lineno tag2) +:+ ":" +:+ d) =
    fragment_key (cb_name (parse self2 tag2)) d.
Proof.
  intros self2. split.
  - simpl. apply append_not_self.
  - unfold fragment_key, parse; simpl. by rewrite !append_assoc.
Qed.

(** X3.  A template compiled with neither a usable filename nor a name
    is known to the extension as [None], whatever its source and
    whatever template was compiled before; all such templates, and a
    template whose file is called ["None"], therefore share their
    fragment keys line by line. *)
Theorem anonymous_templates_share_keys
    self1 self2 self3 src1 src2 src3 nm1 nm2 nm3 fn1 fn2 tag1 tag2 dk :
  py_or fn1 nm1 = None →
  py_or fn2 nm2 = None →
  tag_lineno tag1 = tag_lineno tag2 →
  cb_name (parse (preprocess self1 src1 nm1 fn1).1 tag1) =
    "None+" +:+ str_int (tag_lineno tag1)
  ∧ fragment_key (cb_name (parse (preprocess self1 src1 nm1 fn1).1 tag1)) dk =
    fragment_key (cb_name (parse (preprocess self2 src2 nm2 fn2).1 tag2)) dk
  ∧ fragment_key (cb_name (parse (preprocess self1 src1 nm1 fn1).1 tag1)) dk =
    fragment_key
      (cb_name (parse (preprocess self3 src3 nm3 (Some "None")).1 tag2)) dk.
Proof.
  intros H1 H2 Hl. unfold parse, preprocess; simpl.
  rewrite H1, H2, Hl. simpl. repeat split; reflexivity.
Qed.

(** ** Fragments and writes *)

Lemma cache_support_grows_flush_list nm obj t caller w dk fk r1 w1 :
  TEMPLATE_DEBUG settings = false →
  dependency_key obj = Some dk →
  flush_key obj = Some fk →
  fk ≠ cached_key (fragment_key nm dk) →
  (∀ w0, flush_list_of (store w0) fk ⊆
         flush_list_of (store (caller w0).2) fk) →
  _cache_support nm obj t caller w = (Ok r1, w1) →
  {[cached_key (fragment_key nm dk)]} ∪ flush_list_of (store w) fk
  ⊆ flush_list_of (store w1) fk.
Proof.
  intros Hdbg Hdk Hfk Hne Hkeep Hrun.
  rewrite (cache_support_branch nm obj t caller w dk fk) in Hrun by done.
  unfold cached_key in *.
  set (flush := make_key ("f:" +:+ fragment_key nm dk)) in *.
  assert (flush_list_of (registered_store w fk flush) fk =
          {[flush]} ∪ flush_list_of (store w) fk) as Hreg.
  { unfold flush_list_of at 1, registered_store.
    by rewrite lookup_insert_eq. }
  destruct (ent_value <$> registered_store w fk flush !! flush) as [v0|].
  - inversion Hrun; subst. simpl. by rewrite Hreg.
  - rewrite bind_run in Hrun. unfold call in Hrun.
    rewrite bind_run, log_run in Hrun.
    pose proof (Hkeep (logged (lookup_world w obj fk (fragment_key nm dk)
                                 flush t) [ECaller])) as Hsub.
    destruct (caller _) as [[v|e] wc]; [|done].
    rewrite bind_run in Hrun. unfold cache_set in Hrun.
    rewrite bind_run, log_run in Hrun. unfold modify, mret, M_ret in Hrun.
    inversion Hrun; subst. simpl in *.
    unfold flush_list_of at 2. rewrite lookup_insert_ne by done.
    fold (flush_list_of (store wc) fk). by rewrite <- Hreg.
Qed.

(** X4.  A render that completes leaves the fragment's backend key on
    the dependency's flush list, next to everything that was there,
    provided the block itself never removes keys from that list (and
    the flush key is not the fragment's own backend key). *)
Theorem render_registers_fragment node w dk fk r1 w1 :
  TEMPLATE_DEBUG settings = false →
  dependency_key (cb_obj node) = Some dk →
  flush_key (cb_obj node) = Some fk →
  fk ≠ cached_key (fragment_key (cb_name node) dk) →
  (∀ w0, flush_list_of (store w0) fk ⊆
         flush_list_of (store (cb_body node w0).2) fk) →
  render_block node w = (Ok r1, w1) →
  cached_key (fragment_key (cb_name node) dk) ∈ flush_list_of (store w1) fk
  ∧ flush_list_of (store w) fk ⊆ flush_list_of (store w1) fk.
Proof.
  intros Hdbg Hdk Hfk Hne Hkeep Hrun.
  pose proof (cache_support_grows_flush_list _ _ _ _ _ _ _ _ _
                Hdbg Hdk Hfk Hne Hkeep Hrun) as Hsub.
  split.
  - apply Hsub, elem_of_union_l. by apply elem_of_singleton.
  - intros k Hk. by apply Hsub, elem_of_union_r.
Qed.

(** X5.  A write of the entity a fragment depends on drops the
    fragment: once the fragment's backend key is on the entity's flush
    list, a save of the entity removes its entry, and the next render
    of the block is a miss that runs the block again and stores what it
    produces. *)
Theorem write_invalidates_fragment db e nm obj t caller w dk :
  let fk := entity_flush_key (entity_key e) in
  let key := fragment_key nm dk in
  let flush := cached_key key in
  let w' := (save db e w).2 in
  TEMPLATE_DEBUG settings = false →
  dependency_key obj = Some dk →
  flush_key obj = Some fk →
  fk ≠ flush →
  flush ∈ flush_list_of (store w) fk →
  store w' !! flush = None
  ∧ _cache_support nm obj t caller w' =
    (v ← call caller; _ ← cache_set flush v t; mret (Cached v computed))
      (lookup_world w' obj fk key flush t).
Proof.
  intros fk key flush w' Hdbg Hdk Hfk Hne Hin.
  assert (store w' !! flush = None) as Hgone.
  { subst w'. destruct (save_run db e w) as (evs & -> & _). simpl.
    by apply invalidate_store_head_dependents. }
  split; [done|].
  rewrite (cache_support_branch nm obj t caller w' dk fk) by done.
  fold key. unfold cached_key in *. fold flush.
  unfold registered_store. rewrite lookup_insert_ne by done.
  by rewrite Hgone.
Qed.

(** X6.  One write drops every block rendered over the entity: after
    two blocks over the same object have been rendered (neither block
    removing keys from the entity's flush list), a save of the entity
    leaves neither fragment in the cache. *)
Theorem write_drops_all_blocks
    db e obj dk nm1 nm2 t1 t2 caller1 caller2 w r1 w1 r2 w2 :
  let fk := entity_flush_key (entity_key e) in
  TEMPLATE_DEBUG settings = false →
  dependency_key obj = Some dk →
  flush_key obj = Some fk →
  fk ≠ cached_key (fragment_key nm1 dk) →
  fk ≠ cached_key (fragment_key nm2 dk) →
  (∀ w0, flush_list_of (store w0) fk ⊆
         flush_list_of (store (caller1 w0).2) fk) →
  (∀ w0, flush_list_of (store w0) fk ⊆
         flush_list_of (store (caller2 w0).2) fk) →
  _cache_support nm1 obj t1 caller1 w = (Ok r1, w1) →
  _cache_support nm2 obj t2 caller2 w1 = (Ok r2, w2) →
  store (save db e w2).2 !! cached_key (fragment_key nm1 dk) = None
  ∧ store (save db e w2).2 !! cached_key (fragment_key nm2 dk) = None.
Proof.
  intros fk Hdbg Hdk Hfk Hne1 Hne2 Hkeep1 Hkeep2 Hrun1 Hrun2.
  pose proof (cache_support_grows_flush_list _ _ _ _ _ _ _ _ _
                Hdbg Hdk Hfk Hne1 Hkeep1 Hrun1) as Hsub1.
  pose proof (cache_support_grows_flush_list _ _ _ _ _ _ _ _ _
                Hdbg Hdk Hfk Hne2 Hkeep2 Hrun2) as Hsub2.
  destruct (save_run db e w2) as (evs & -> & _). simpl.
  split; apply invalidate_store_head_dependents; apply Hsub2.
  - apply elem_of_union_r, Hsub1, elem_of_union_l.
    by apply elem_of_singleton.
  - apply elem_of_union_l. by apply elem_of_singleton.
Qed.

(** X7.  What a render leaves under the fragment's backend key: on a
    miss, the block's output with exactly the timeout the tag passed
    ([None], the backend default, when it passed none); on a hit, the
    entry as it was, value and timeout, whatever the tag now passes. *)
Theorem fragment_stored_with_tag_timeout self tag w dk fk :
  let node := parse self tag in
  let key := fragment_key (cb_name node) dk in
  let flush := cached_key key in
  TEMPLATE_DEBUG settings = false →
  dependency_key (tag_obj tag) = Some dk →
  flush_key (tag_obj tag) = Some fk →
  fk ≠ flush →
  (∀ v wc,
     store w !! flush = None →
     tag_body tag
       (logged (lookup_world w (tag_obj tag) fk key flush (tag_timeout tag))
          [ECaller]) = (Ok v, wc) →
     (render_block node w).1 = Ok (Cached v computed)
     ∧ store (render_block node w).2 !! flush =
       Some (Entry v (tag_timeout tag)))
  ∧ (∀ en,
       store w !! flush = Some en →
       (render_block node w).1 = Ok (Cached (ent_value en) from_cache)
       ∧ store (render_block node w).2 !! flush = Some en).
Proof.
  intros node key flush Hdbg Hdk Hfk Hne.
  unfold render_block.
  rewrite (cache_support_branch (cb_name node) (cb_obj node)
             (cb_timeout node) (cb_body node) w dk fk) by done.
  change (cb_obj node) with (tag_obj tag).
  change (cb_timeout node) with (tag_timeout tag).
  change (cb_body node) with (tag_body tag).
  fold key. unfold cached_key in *. fold flush.
  assert (registered_store w fk flush !! flush = store w !! flush) as Hreg.
  { unfold registered_store. by rewrite lookup_insert_ne. }
  rewrite Hreg. split.
  - intros v wc Hmiss Hbody. rewrite Hmiss. simpl.
    rewrite bind_run. unfold call. rewrite bind_run, log_run, Hbody.
    simpl. split; [done|]. by rewrite lookup_insert_eq.
  - intros en Hhit. rewrite Hhit. simpl. split; [done|].
    by rewrite Hreg.
Qed.

End caching.

(** * The statements at work on the fixtures *)

(** [test_cache_key]: the key of addon 1. *)
Example entity_key_addon1 : entity_key addon1 = "o:testapp.addon:1".
Proof. vm_compute. reflexivity. Qed.

(** A template built by [env.from_string] has neither name nor
    filename; [%s] prints [None]. *)
Example from_string_block_name :
  cb_name (parse from_string (CacheTag 1 all_addons None (mret (VStr ""))))
  = "None+1".
Proof. vm_compute. reflexivity. Qed.

(** [filename or name]: the filename wins unless it is empty. *)
Example preprocess_prefers_filename :
  name index_html = Some "index.html"
  ∧ name (preprocess {| name := None |} "" (Some "index") (Some "")).1
    = Some "index".
Proof. split; reflexivity. Qed.

(** The tag of [test_jinja_cache_tag_queryset], on line 7 of
    [index.html]. *)
Lemma fragment_cache_key_used_witness :
  TEMPLATE_DEBUG caching_on = false
  ∧ dependency_key all_addons = Some "qs:addons"
  ∧ flush_key all_addons = Some "flush:qs:addons"
  ∧ render_block prefixed caching_on
      (parse index_html
         (CacheTag 7 all_addons None (mret (VStr "1:42;2:42;")))) cold =
    (_ ← add_to_flush_list ["flush:qs:addons"]
           "cm:f:fragment:index.html+7:qs:addons";
     '(v, p) ← cached prefixed caching_on (mret (VStr "1:42;2:42;"))
                 "fragment:index.html+7:qs:addons" None;
     mret (Cached v p)) (logged cold (probe_events all_addons)).
Proof.
  split; [reflexivity|]. split; [reflexivity|]. split; [reflexivity|].
  exact (fragment_cache_key_used prefixed caching_on
           {| name := None |} "" (Some "index") (Some "index.html")
           (CacheTag 7 all_addons None (mret (VStr "1:42;2:42;"))) cold
           "qs:addons" "flush:qs:addons" eq_refl eq_refl eq_refl).
Defined.

(** In debug mode even an object without any key renders, and nothing
    but the block is on record. *)
Lemma debug_bypasses_cache_witness :
  TEMPLATE_DEBUG debug_on = true
  ∧ _cache_support prefixed debug_on "index.html+7" (PyObj None None None)
      None (mret (VStr "1:42;2:42;")) cold =
    (Ok (Direct (VStr "1:42;2:42;")), logged cold [ECaller]).
Proof.
  split; [reflexivity|].
  exact (proj2 (debug_bypasses_cache prefixed debug_on "index.html+7"
                  (PyObj None None None) None (mret (VStr "1:42;2:42;"))
                  cold eq_refl) (VStr "1:42;2:42;")).
Defined.

(** An object with both [query_key()] and [cache_key]: the key is
    built from the former and [cache_key] is never read. *)
Lemma query_key_takes_precedence_witness :
  TEMPLATE_DEBUG caching_on = false
  ∧ _cache_support prefixed caching_on "index.html+7"
      (PyObj (Some "qs:addons") (Some "o:testapp.addon:1")
         (Some "flush:qs:addons")) None (mret (VStr "1:42;2:42;")) cold =
    (_ ← add_to_flush_list ["flush:qs:addons"]
           (cached_key prefixed (fragment_key "index.html+7" "qs:addons"));
     '(v, p) ← cached prefixed caching_on (mret (VStr "1:42;2:42;"))
                 (fragment_key "index.html+7" "qs:addons") None;
     mret (Cached v p))
      (logged cold [EHasattr "query_key"; ECallMethod "query_key";
                    ECallMethod "flush_key"]).
Proof.
  split; [reflexivity|].
  exact (proj1 (proj2 (query_key_takes_precedence prefixed caching_on
                         "index.html+7" "qs:addons"
                         (Some "o:testapp.addon:1") (Some "flush:qs:addons")
                         None (mret (VStr "1:42;2:42;")) cold))
           eq_refl "flush:qs:addons" eq_refl).
Defined.

(** C5, as stated, fails: an object that answers [query_key()] and has
    no [flush_key()] makes the cache tag raise. *)
Lemma query_key_alone_raises :
  query_key query_key_only = Some "qs:addons"
  ∧ cache_key query_key_only = None
  ∧ flush_key query_key_only = None
  ∧ (_cache_support prefixed caching_on "index.html+7" query_key_only None
       (mret (VStr "1:42;2:42;")) cold).1
    = Raise (AttributeError "flush_key").
Proof. do 3 (split; [reflexivity|]). vm_compute. reflexivity. Qed.

Lemma query_key_needs_flush_key_witness :
  TEMPLATE_DEBUG caching_on = false
  ∧ is_Some (flush_key all_addons)
  ∧ (∀ w, ∃ v w', (mret (VStr "1:42;2:42;") : M value) w = (Ok v, w'))
  ∧ ∃ r w',
      _cache_support prefixed caching_on "index.html+7"
        (PyObj (Some "qs:addons") None (Some "flush:qs:addons")) None
        (mret (VStr "1:42;2:42;")) cold = (Ok r, w').
Proof.
  split; [reflexivity|].
  split; [by eexists|].
  split; [intros w; by eexists _, _|].
  apply (proj2 (query_key_needs_flush_key prefixed caching_on
                  "index.html+7" "qs:addons" None (Some "flush:qs:addons")
                  None (mret (VStr "1:42;2:42;")) cold eq_refl)).
  - by eexists.
  - intros w. by eexists _, _.
Defined.

(** The first render of the queryset block of
    [test_jinja_cache_tag_queryset]: a miss, registered before the
    lookup. *)
Lemma registration_precedes_lookup_witness :
  TEMPLATE_DEBUG caching_on = false
  ∧ dependency_key all_addons = Some "qs:addons"
  ∧ flush_key all_addons = Some "flush:qs:addons"
  ∧ let key := fragment_key "None+1" "qs:addons" in
    let flush := prefixed ("f:" +:+ key) in
    let w1 :=
      World (registered_store cold "flush:qs:addons" flush)
            (trace cold ++ probe_events all_addons ++
             [EAddToFlushList ["flush:qs:addons"] flush;
              ECacheGet "flush:qs:addons";
              ECacheSet "flush:qs:addons"
                (VSet ({[flush]} ∪
                       flush_list_of (store cold) "flush:qs:addons")) None;
              ECached key None; ECacheGet flush]) in
    flush ∈ flush_list_of (store w1) "flush:qs:addons"
    ∧ _cache_support prefixed caching_on "None+1" all_addons None
        (mret (VStr "1:42;2:42;")) cold =
      match ent_value <$> store w1 !! flush with
      | Some v => (Ok (Cached v from_cache), w1)
      | None =>
          (v ← call (mret (VStr "1:42;2:42;"));
           _ ← cache_set flush v None;
           mret (Cached v computed)) w1
      end.
Proof.
  split; [reflexivity|]. split; [reflexivity|]. split; [reflexivity|].
  exact (proj1 (registration_precedes_lookup prefixed caching_on "None+1"
                  all_addons None (mret (VStr "1:42;2:42;")) cold eq_refl)
           "qs:addons" "flush:qs:addons" eq_refl eq_refl).
Defined.

(** [check(Addon.objects.all(), '1:42;2:42;')] twice: the second
    render comes from the cache. *)
Lemma second_render_from_cache_witness :
  let node :=
    parse from_string
      (CacheTag 1 all_addons None (mret (VStr "1:42;2:42;"))) in
  let w1 := (render_block prefixed caching_on node cold).2 in
  TEMPLATE_DEBUG caching_on = false
  ∧ dependency_key (cb_obj node) = Some "qs:addons"
  ∧ flush_key (cb_obj node) = Some "flush:qs:addons"
  ∧ "flush:qs:addons" ≠
      cached_key prefixed (fragment_key (cb_name node) "qs:addons")
  ∧ render_block prefixed caching_on node cold =
      (Ok (Cached (VStr "1:42;2:42;") computed), w1)
  ∧ (render_block prefixed caching_on node w1).1 =
      Ok (Cached (VStr "1:42;2:42;") from_cache).
Proof.
  intros node w1.
  assert ("flush:qs:addons" ≠
          cached_key prefixed (fragment_key (cb_name node) "qs:addons"))
    as Hne by (vm_compute; discriminate).
  assert (render_block prefixed caching_on node cold =
          (Ok (Cached (VStr "1:42;2:42;") computed), w1))
    as Hfirst by (vm_compute; reflexivity).
  split; [reflexivity|]. split; [reflexivity|]. split; [reflexivity|].
  split; [exact Hne|]. split; [exact Hfirst|].
  destruct (second_render_from_cache prefixed caching_on node cold
              "qs:addons" "flush:qs:addons" _ w1
              eq_refl eq_refl eq_refl Hne Hfirst)
    as (v & p & Hr & Hsecond).
  rewrite Hsecond. simpl. by inversion Hr.
Defined.

(** C4, as stated, fails: two [cache] tags on one line of one template
    over the same object get one key, and the second block is served
    the first block's output. *)
Lemma same_line_tags_collide :
  let tag1 := CacheTag 1 addon1_obj None (mret (VStr "1")) in
  let tag2 := CacheTag 1 addon1_obj None (mret (VStr "42")) in
  let w1 := (render_block prefixed caching_on (parse from_string tag1) cold).2 in
  tag1 ≠ tag2
  ∧ fragment_key (cb_name (parse from_string tag1)) "o:testapp.addon:1" =
    fragment_key (cb_name (parse from_string tag2)) "o:testapp.addon:1"
  ∧ (render_block prefixed caching_on (parse from_string tag1) cold).1 =
    Ok (Cached (VStr "1") computed)
  ∧ (render_block prefixed caching_on (parse from_string tag2) w1).1 =
    Ok (Cached (VStr "1") from_cache).
Proof.
  intros tag1 tag2 w1. split.
  - intros Heq. apply (f_equal (λ t, (tag_body t cold).1)) in Heq.
    discriminate Heq.
  - split; [reflexivity|]. split; vm_compute; reflexivity.
Qed.

(** [test_invalidation]: a query that returned addon 1 is cached; after
    [a.save()] its entry is gone. *)
Lemma write_invalidates_dependents_witness :
  let w := (execute_query prefixed caching_on "qs:addons"
              (mret rows_v1) None cold).2 in
  execute_query prefixed caching_on "qs:addons" (mret rows_v1) None cold =
    (Ok (rows_v1, computed), w)
  ∧ addon1 ∈ rows_entities rows_v1
  ∧ is_Some (store w !! cached_key prefixed "qs:addons")
  ∧ store (save testapp addon1 w).2 !! cached_key prefixed "qs:addons" = None.
Proof.
  intros w.
  assert (execute_query prefixed caching_on "qs:addons"
            (mret rows_v1) None cold = (Ok (rows_v1, computed), w))
    as Hread by (vm_compute; reflexivity).
  assert (addon1 ∈ rows_entities rows_v1) as Hin by (simpl; by left).
  split; [exact Hread|]. split; [exact Hin|].
  split; [vm_compute; by eexists|].
  exact (proj1 (proj2 (proj2 (proj2 (proj2
           (write_invalidates_dependents prefixed caching_on testapp
              addon1 w)))))
           "qs:addons" (mret rows_v1) None cold rows_v1 computed Hread Hin).
Defined.

(** [test_fk_invalidation] and [test_fk_parent_invalidation]: saving
    addon 1 reaches its author, saving the author reaches addon 1. *)
Lemma write_cascades_both_directions_witness :
  user1 ∈ addon1 :: related_entities testapp addon1
  ∧ addon1 ∈ user1 :: related_entities testapp user1
  ∧ (∀ w, store (save testapp addon1 w).2 !! entity_key user1 = None)
  ∧ (∀ w, store (save testapp user1 w).2 !! entity_key addon1 = None).
Proof.
  assert (user1 ∈ addon1 :: related_entities testapp addon1) as H1
    by (vm_compute; repeat constructor).
  assert (addon1 ∈ user1 :: related_entities testapp user1) as H2
    by (vm_compute; repeat constructor).
  split; [exact H1|]. split; [exact H2|]. split; intros w.
  - exact (proj1 (proj2 (proj2 (write_cascades_both_directions
             testapp addon1 w)) user1 H1)).
  - exact (proj1 (proj2 (proj2 (write_cascades_both_directions
             testapp user1 w)) addon1 H2)).
Defined.

(** [test_count_none_timeout] and [test_count_cache]. *)
Lemma count_cache_timeout_witness :
  CACHE_COUNT_TIMEOUT count_uncached = None
  ∧ count prefixed count_uncached "count:addons" (mret (VInt 2)) cold =
    (Ok (VInt 2), logged cold [ECaller])
  ∧ CACHE_COUNT_TIMEOUT caching_on = Some 60%Z
  ∧ TEMPLATE_DEBUG caching_on = false
  ∧ store cold !! cached_key prefixed "count:addons" = None
  ∧ count prefixed caching_on "count:addons" (mret (VInt 2)) cold =
    (Ok (VInt 2),
     World (<[cached_key prefixed "count:addons" := Entry (VInt 2) (Some 60%Z)]> ∅)
           [ECached "count:addons" (Some 60%Z);
            ECacheGet (cached_key prefixed "count:addons"); ECaller;
            ECacheSet (cached_key prefixed "count:addons") (VInt 2)
              (Some 60%Z)]).
Proof.
  split; [reflexivity|].
  split.
  { exact (proj1 (count_cache_timeout prefixed count_uncached
                    "count:addons" (mret (VInt 2)) cold) eq_refl). }
  split; [reflexivity|]. split; [reflexivity|]. split; [reflexivity|].
  exact (proj2 (count_cache_timeout prefixed caching_on
                  "count:addons" (mret (VInt 2)) cold)
           60%Z (VInt 2) _ eq_refl eq_refl eq_refl eq_refl).
Defined.

(** One call site, a queryset and a model instance: two keys. *)
Lemma fragment_key_injective_witness :
  (":"%char ∉ String.list_ascii_of_string (str_opt (name index_html)))
  ∧ (fragment_key
       (cb_name (parse index_html
                   (CacheTag 7 all_addons None (mret (VStr "")))))
       "qs:addons")
    ≠ (fragment_key
         (cb_name (parse index_html
                     (CacheTag 7 addon1_obj None (mret (VStr "")))))
         "o:testapp.addon:1").
Proof.
  assert (":"%char ∉ String.list_ascii_of_string (str_opt (name index_html)))
    as Hc.
  { change (str_opt (name index_html)) with "index.html". simpl.
    repeat (apply not_elem_of_cons; split; [discriminate|]).
    apply not_elem_of_nil. }
  split; [exact Hc|].
  intros Heq.
  apply (proj1 (fragment_key_injective index_html index_html
                  (CacheTag 7 all_addons None (mret (VStr "")))
                  (CacheTag 7 addon1_obj None (mret (VStr "")))
                  "qs:addons" "o:testapp.addon:1" Hc Hc)) in Heq.
  destruct Heq as (_ & _ & Hdk). discriminate Hdk.
Defined.

(** Two templates built by [env.from_string], as in
    [test_jinja_cache_tag_object] and [test_jinja_multiple_tags]: their
    first-line tags over addon 1 share one key. *)
Lemma anonymous_templates_share_keys_witness :
  py_or None None = None
  ∧ py_or (Some "") None = None
  ∧ fragment_key
      (cb_name (parse (preprocess index_html "{% cache obj, 30 %}" None None).1
                  (CacheTag 1 addon1_obj (Some 30%Z) (mret (VStr "1:42")))))
      "o:testapp.addon:1"
    = fragment_key
        (cb_name (parse (preprocess from_string "{% cache obj %}" None
                           (Some "")).1
                    (CacheTag 1 addon1_obj None (mret (VStr "1")))))
        "o:testapp.addon:1".
Proof.
  split; [reflexivity|]. split; [reflexivity|].
  exact (proj1 (proj2 (anonymous_templates_share_keys
                         index_html from_string from_string
                         "{% cache obj, 30 %}" "{% cache obj %}" ""
                         None None None None (Some "")
                         (CacheTag 1 addon1_obj (Some 30%Z)
                            (mret (VStr "1:42")))
                         (CacheTag 1 addon1_obj None (mret (VStr "1")))
                         "o:testapp.addon:1" eq_refl eq_refl eq_refl))).
Defined.

(** [test_jinja_cache_tag_object]: [{% cache obj, 30 %}] over addon 1,
    rendered on a cold cache. *)
Lemma render_registers_fragment_witness :
  let node :=
    parse from_string
      (CacheTag 1 addon1_obj (Some 30%Z) (mret (VStr "1:42"))) in
  let fk := entity_flush_key (entity_key addon1) in
  let flush := cached_key prefixed (fragment_key (cb_name node) (entity_key addon1)) in
  let w1 := (render_block prefixed caching_on node cold).2 in
  TEMPLATE_DEBUG caching_on = false
  ∧ dependency_key (cb_obj node) = Some (entity_key addon1)
  ∧ flush_key (cb_obj node) = Some fk
  ∧ fk ≠ flush
  ∧ (∀ w0, flush_list_of (store w0) fk ⊆
           flush_list_of (store (cb_body node w0).2) fk)
  ∧ render_block prefixed caching_on node cold =
      (Ok (Cached (VStr "1:42") computed), w1)
  ∧ flush ∈ flush_list_of (store w1) fk.
Proof.
  intros node fk flush w1.
  assert (fk ≠ flush) as Hne by (vm_compute; discriminate).
  assert (∀ w0, flush_list_of (store w0) fk ⊆
                flush_list_of (store (cb_body node w0).2) fk) as Hkeep
    by (intros w0; reflexivity).
  assert (render_block prefixed caching_on node cold =
          (Ok (Cached (VStr "1:42") computed), w1)) as Hrun
    by (vm_compute; reflexivity).
  split; [reflexivity|]. split; [reflexivity|]. split; [reflexivity|].
  split; [exact Hne|]. split; [exact Hkeep|]. split; [exact Hrun|].
  exact (proj1 (render_registers_fragment prefixed caching_on node cold
                  (entity_key addon1) fk _ w1
                  eq_refl eq_refl eq_refl Hne Hkeep Hrun)).
Defined.

(** [check(addon, '1:42'); addon.val = 17; addon.save();
    check(addon, '1:17')]. *)
Lemma write_invalidates_fragment_witness :
  let node1 :=
    parse from_string
      (CacheTag 1 addon1_obj (Some 30%Z) (mret (VStr "1:42"))) in
  let fk := entity_flush_key (entity_key addon1) in
  let flush := cached_key prefixed (fragment_key "None+1" (entity_key addon1)) in
  let w := (render_block prefixed caching_on node1 cold).2 in
  let w' := (save testapp addon1 w).2 in
  TEMPLATE_DEBUG caching_on = false
  ∧ dependency_key addon1_obj = Some (entity_key addon1)
  ∧ flush_key addon1_obj = Some fk
  ∧ fk ≠ flush
  ∧ flush ∈ flush_list_of (store w) fk
  ∧ is_Some (store w !! flush)
  ∧ store w' !! flush = None
  ∧ (_cache_support prefixed caching_on "None+1" addon1_obj (Some 30%Z)
       (mret (VStr "1:17")) w').1 = Ok (Cached (VStr "1:17") computed).
Proof.
  intros node1 fk flush w w'.
  assert (fk ≠ flush) as Hne by (vm_compute; discriminate).
  assert (flush ∈ flush_list_of (store w) fk) as Hin.
  { assert (_cache_support prefixed caching_on "None+1" addon1_obj
              (Some 30%Z) (mret (VStr "1:42")) cold =
            (Ok (Cached (VStr "1:42") computed), w)) as Hfirst
      by (vm_compute; reflexivity).
    assert (∀ w0, flush_list_of (store w0) fk ⊆
                  flush_list_of
                    (store ((mret (VStr "1:42") : M value) w0).2) fk)
      as Hkeep by (intros w0; reflexivity).
    pose proof (cache_support_grows_flush_list prefixed caching_on
             "None+1" addon1_obj (Some 30%Z) (mret (VStr "1:42")) cold
             (entity_key addon1) fk (Cached (VStr "1:42") computed) w
             eq_refl eq_refl eq_refl Hne Hkeep Hfirst)
      as Hsub.
    apply Hsub, elem_of_union_l. by apply elem_of_singleton. }
  destruct (write_invalidates_fragment prefixed caching_on testapp addon1
              "None+1" addon1_obj (Some 30%Z) (mret (VStr "1:17")) w
              (entity_key addon1) eq_refl eq_refl eq_refl Hne Hin)
    as [Hgone Hrun].
  split; [reflexivity|]. split; [reflexivity|]. split; [reflexivity|].
  split; [exact Hne|]. split; [exact Hin|].
  split; [vm_compute; by eexists|].
  split; [exact Hgone|].
  etrans; [exact (f_equal fst Hrun)|reflexivity].
Defined.

(** [test_jinja_multiple_tags]: two tags over addon 1, on lines 1 and 2;
    after [addon.save()] neither fragment is left. *)
Lemma write_drops_all_blocks_witness :
  let fk := entity_flush_key (entity_key addon1) in
  let w1 :=
    (_cache_support prefixed caching_on "None+1" addon1_obj None
       (mret (VStr "1")) cold).2 in
  let w2 :=
    (_cache_support prefixed caching_on "None+2" addon1_obj None
       (mret (VStr "42")) w1).2 in
  TEMPLATE_DEBUG caching_on = false
  ∧ dependency_key addon1_obj = Some (entity_key addon1)
  ∧ flush_key addon1_obj = Some fk
  ∧ fk ≠ cached_key prefixed (fragment_key "None+1" (entity_key addon1))
  ∧ fk ≠ cached_key prefixed (fragment_key "None+2" (entity_key addon1))
  ∧ _cache_support prefixed caching_on "None+1" addon1_obj None
      (mret (VStr "1")) cold = (Ok (Cached (VStr "1") computed), w1)
  ∧ _cache_support prefixed caching_on "None+2" addon1_obj None
      (mret (VStr "42")) w1 = (Ok (Cached (VStr "42") computed), w2)
  ∧ store (save testapp addon1 w2).2
      !! cached_key prefixed (fragment_key "None+1" (entity_key addon1)) = None
  ∧ store (save testapp addon1 w2).2
      !! cached_key prefixed (fragment_key "None+2" (entity_key addon1)) = None.
Proof.
  intros fk w1 w2.
  assert (fk ≠ cached_key prefixed (fragment_key "None+1" (entity_key addon1)))
    as Hne1 by (vm_compute; discriminate).
  assert (fk ≠ cached_key prefixed (fragment_key "None+2" (entity_key addon1)))
    as Hne2 by (vm_compute; discriminate).
  assert (_cache_support prefixed caching_on "None+1" addon1_obj None
            (mret (VStr "1")) cold = (Ok (Cached (VStr "1") computed), w1))
    as Hrun1 by (vm_compute; reflexivity).
  assert (_cache_support prefixed caching_on "None+2" addon1_obj None
            (mret (VStr "42")) w1 = (Ok (Cached (VStr "42") computed), w2))
    as Hrun2 by (vm_compute; reflexivity).
  assert (∀ (v : value) w0,
            flush_list_of (store w0) fk ⊆
            flush_list_of (store ((mret v : M value) w0).2) fk)
    as Hkeep by (intros v w0; reflexivity).
  split; [reflexivity|]. split; [reflexivity|]. split; [reflexivity|].
  split; [exact Hne1|]. split; [exact Hne2|].
  split; [exact Hrun1|]. split; [exact Hrun2|].
  exact (write_drops_all_blocks prefixed caching_on testapp addon1
           addon1_obj (entity_key addon1) "None+1" "None+2" None None
           (mret (VStr "1")) (mret (VStr "42")) cold _ w1 _ w2
           eq_refl eq_refl eq_refl Hne1 Hne2
           (Hkeep (VStr "1")) (Hkeep (VStr "42")) Hrun1 Hrun2).
Defined.

(** [{% cache obj, 30 %}] on a cold cache stores the output for 30
    seconds. *)
Lemma fragment_stored_with_tag_timeout_witness :
  let tag := CacheTag 1 addon1_obj (Some 30%Z) (mret (VStr "1:42")) in
  let node := parse from_string tag in
  let fk := entity_flush_key (entity_key addon1) in
  let flush := cached_key prefixed (fragment_key (cb_name node) (entity_key addon1)) in
  TEMPLATE_DEBUG caching_on = false
  ∧ dependency_key (tag_obj tag) = Some (entity_key addon1)
  ∧ flush_key (tag_obj tag) = Some fk
  ∧ fk ≠ flush
  ∧ store cold !! flush = None
  ∧ (render_block prefixed caching_on node cold).1 =
      Ok (Cached (VStr "1:42") computed)
  ∧ store (render_block prefixed caching_on node cold).2 !! flush =
      Some (Entry (VStr "1:42") (Some 30%Z)).
Proof.
  intros tag node fk flush.
  assert (fk ≠ flush) as Hne by (vm_compute; discriminate).
  split; [reflexivity|]. split; [reflexivity|]. split; [reflexivity|].
  split; [exact Hne|]. split; [reflexivity|].
  exact (proj1 (fragment_stored_with_tag_timeout prefixed caching_on
                  from_string tag cold (entity_key addon1) fk
                  eq_refl eq_refl eq_refl Hne)
           (VStr "1:42") _ eq_refl eq_refl).
Defined.
